(** * The Windows C API shim of the recollect_utils plugin

    Source: [windows/recollect_utils_plugin_c_api.cpp].

    The translation unit holds one function,

    <<
    void RecollectUtilsPluginCApiRegisterWithRegistrar(
        FlutterDesktopPluginRegistrarRef registrar) {
      recollect_utils::RecollectUtilsPlugin::RegisterWithRegistrar(
          flutter::PluginRegistrarManager::GetInstance()
              ->GetRegistrar<flutter::PluginRegistrarWindows>(registrar));
    }
    >>

    whose body is three nested calls into code that lives elsewhere: the
    Flutter client wrapper ([PluginRegistrarManager]) and the plugin class
    ([RecollectUtilsPlugin]).  The function is embedded as a program over
    these three calls; the callees are a parameter of the semantics
    ([Collaborators]), each an arbitrary, possibly failing transformer of
    the process state.  Running a program yields its outcome, the state it
    leaves and the log of every call it entered and left. *)

From Stdlib Require Import List NArith String Bool.
Import ListNotations.
Local Open Scope N_scope.

(** ** Data: the three pointer types of the source *)

(** [FlutterDesktopPluginRegistrarRef]: the embedder's opaque handle, a
    pointer to an incomplete struct.  Only its address is observable. *)
Variant FlutterDesktopPluginRegistrarRef : Type :=
| RegistrarRef (addr : N).

(** [flutter::PluginRegistrarManager*], as returned by [GetInstance()]. *)
Variant PluginRegistrarManagerPtr : Type :=
| ManagerAt (addr : N).

(** [flutter::PluginRegistrarWindows*], the typed registrar that
    [GetRegistrar<flutter::PluginRegistrarWindows>] returns. *)
Variant PluginRegistrarWindowsPtr : Type :=
| WindowsRegistrarAt (addr : N).

Definition null_registrar : FlutterDesktopPluginRegistrarRef := RegistrarRef 0.

(** What a callee can do instead of returning: touch a bad address or let a
    C++ exception escape.  The shim has no [try] block, so either one ends
    the call. *)
Variant Exn : Type :=
| AccessViolation (addr : N)
| CppException (what : string).

(** ** The calls the translation unit makes *)

Inductive Call : Type :=
| CallGetInstance
| CallGetRegistrar (self : PluginRegistrarManagerPtr)
                   (registrar_ref : FlutterDesktopPluginRegistrarRef)
| CallRegisterWithRegistrar (registrar : PluginRegistrarWindowsPtr).

(** The C++ return type of each callee. *)
Definition answer (c : Call) : Type :=
  match c with
  | CallGetInstance => PluginRegistrarManagerPtr
  | CallGetRegistrar _ _ => PluginRegistrarWindowsPtr
  | CallRegisterWithRegistrar _ => unit
  end.

(** ** Programs: straight-line C++ over those calls *)

Inductive Prog (R : Type) : Type :=
| Ret (r : R)
| Do (c : Call) (k : answer c -> Prog R)
| Throw (e : Exn).

Arguments Ret {R} r.
Arguments Do {R} c k.
Arguments Throw {R} e.

Fixpoint bind {A B : Type} (p : Prog A) (f : A -> Prog B) : Prog B :=
  match p with
  | Ret a => f a
  | Do c k => Do c (fun x => bind (k x) f)
  | Throw e => Throw e
  end.

Definition call (c : Call) : Prog (answer c) := Do c Ret.

Declare Scope prog_scope.
Delimit Scope prog_scope with prog.
Notation "x <- p ;; q" := (bind p (fun x => q))
  (at level 61, p at next level, right associativity) : prog_scope.
Local Open Scope prog_scope.

(** The callees, under the names the source calls them by. *)
Module PluginRegistrarManager.
Definition GetInstance : Prog PluginRegistrarManagerPtr :=
  call CallGetInstance.
Definition GetRegistrar (self : PluginRegistrarManagerPtr)
    (registrar : FlutterDesktopPluginRegistrarRef)
  : Prog PluginRegistrarWindowsPtr :=
  call (CallGetRegistrar self registrar).
End PluginRegistrarManager.

Module RecollectUtilsPlugin.
Definition RegisterWithRegistrar (registrar : PluginRegistrarWindowsPtr)
  : Prog unit :=
  call (CallRegisterWithRegistrar registrar).
End RecollectUtilsPlugin.

(** ** The shim

    C++ evaluates the callee's argument before the call, and the object
    expression [GetInstance()] before the member call on it: the three
    calls happen in the order written below. *)
Definition RecollectUtilsPluginCApiRegisterWithRegistrar
    (registrar : FlutterDesktopPluginRegistrarRef) : Prog unit :=
  manager <- PluginRegistrarManager.GetInstance ;;
  typed <- PluginRegistrarManager.GetRegistrar manager registrar ;;
  RecollectUtilsPlugin.RegisterWithRegistrar typed.

(** ** Semantics *)

(** A returned value, as it is written to the log. *)
Variant Value : Type :=
| VManager (m : PluginRegistrarManagerPtr)
| VRegistrar (r : PluginRegistrarWindowsPtr)
| VVoid.

Definition reify (c : Call) : answer c -> Value :=
  match c return answer c -> Value with
  | CallGetInstance => VManager
  | CallGetRegistrar _ _ => VRegistrar
  | CallRegisterWithRegistrar _ => fun _ => VVoid
  end.

Variant Event : Type :=
| Enter (c : Call)
| Leave (c : Call) (v : Value)
| Unwind (c : Call) (e : Exn).

(** Where an error that ends the call was raised. *)
Variant Origin : Type :=
| InShim
| InCallee (c : Call).

Variant Outcome (R : Type) : Type :=
| Returned (r : R)
| Raised (o : Origin) (e : Exn).

Arguments Returned {R} r.
Arguments Raised {R} o e.

Section Semantics.

Context {World : Type}.

(** The code behind the three calls.  None of it is in this translation
    unit, so nothing is assumed of it: each callee may read and write the
    whole process state and may fail. *)
Record Collaborators : Type := {
  manager_instance :
    World -> (Exn + PluginRegistrarManagerPtr) * World;
  manager_get_registrar :
    PluginRegistrarManagerPtr -> FlutterDesktopPluginRegistrarRef ->
    World -> (Exn + PluginRegistrarWindowsPtr) * World;
  plugin_register :
    PluginRegistrarWindowsPtr -> World -> (Exn + unit) * World
}.

Definition perform (E : Collaborators) (c : Call)
  : World -> (Exn + answer c) * World :=
  match c return World -> (Exn + answer c) * World with
  | CallGetInstance => manager_instance E
  | CallGetRegistrar self ref => manager_get_registrar E self ref
  | CallRegisterWithRegistrar r => plugin_register E r
  end.

Record Run (R : Type) : Type := {
  outcome : Outcome R;
  world : World;
  log : list Event
}.

Arguments outcome {R} _.
Arguments world {R} _.
Arguments log {R} _.

Fixpoint run {R : Type} (E : Collaborators) (p : Prog R) (w : World)
  : Run R :=
  match p with
  | Ret r => {| outcome := Returned r; world := w; log := [] |}
  | Throw e => {| outcome := Raised InShim e; world := w; log := [] |}
  | Do c k =>
      match perform E c w with
      | (inr a, w') =>
          let rest := run E (k a) w' in
          {| outcome := outcome rest;
             world := world rest;
             log := Enter c :: Leave c (reify c a) :: log rest |}
      | (inl e, w') =>
          {| outcome := Raised (InCallee c) e;
             world := w';
             log := [Enter c; Unwind c e] |}
      end
  end.

End Semantics.

Arguments Collaborators World : clear implicits.
Arguments Run World R : clear implicits.
Arguments outcome {World R} _.
Arguments world {World R} _.
Arguments log {World R} _.

(** ** Reading a log *)

(** The calls that were entered, in order. *)
Fixpoint calls (l : list Event) : list Call :=
  match l with
  | [] => []
  | Enter c :: l' => c :: calls l'
  | _ :: l' => calls l'
  end.

(** The typed registrars handed to the plugin's registration method. *)
Fixpoint registrations (cs : list Call) : list PluginRegistrarWindowsPtr :=
  match cs with
  | [] => []
  | CallRegisterWithRegistrar r :: cs' => r :: registrations cs'
  | _ :: cs' => registrations cs'
  end.

(** The conversions: each lookup of a handle, with the manager it was
    made on. *)
Fixpoint conversions (cs : list Call)
  : list (PluginRegistrarManagerPtr * FlutterDesktopPluginRegistrarRef) :=
  match cs with
  | [] => []
  | CallGetRegistrar m h :: cs' => (m, h) :: conversions cs'
  | _ :: cs' => conversions cs'
  end.

(** The calls of [GetInstance] among the calls made. *)
Definition instances_entered (cs : list Call) : list Call :=
  filter (fun c => match c with CallGetInstance => true | _ => false end) cs.

(** The managers [GetInstance] returned. *)
Fixpoint instances (l : list Event) : list PluginRegistrarManagerPtr :=
  match l with
  | [] => []
  | Leave CallGetInstance (VManager m) :: l' => m :: instances l'
  | _ :: l' => instances l'
  end.

(** Every place a raw handle is passed to a callee. *)
Definition handle_args (c : Call) : list FlutterDesktopPluginRegistrarRef :=
  match c with
  | CallGetRegistrar _ h => [h]
  | _ => []
  end.

Definition takes_handle (c : Call) : bool :=
  match handle_args c with
  | [] => false
  | _ :: _ => true
  end.

Definition handles_passed (l : list Event)
  : list FlutterDesktopPluginRegistrarRef :=
  flat_map handle_args (calls l).

(** A program that has no [throw] of its own. *)
Fixpoint throw_free {R : Type} (p : Prog R) : Prop :=
  match p with
  | Ret _ => True
  | Throw _ => False
  | Do c k => forall a, throw_free (k a)
  end.

(** A log of synchronous calls: every call that is entered is left, by
    return or by unwinding, before anything else happens, and nothing
    happens after an unwinding. *)
Inductive Synchronous : list Event -> Prop :=
| Sync_nil : Synchronous []
| Sync_return c v l : Synchronous l -> Synchronous (Enter c :: Leave c v :: l)
| Sync_unwind c e : Synchronous [Enter c; Unwind c e].

(** ** A concrete host, to run the shim on

    A stand-in for the two collaborators, neither of which is in this
    translation unit.  The manager follows the Flutter client wrapper
    ([flutter/plugin_registrar.h]): [GetInstance] answers with the one
    manager of the process, and [GetRegistrar<T>] returns the typed wrapper
    of a handle, creating it on the first lookup and keeping it in the
    manager's table [registrars_] from then on.  The plugin records the
    registrar it was given.  A null manager or a null handle is an access
    violation inside the lookup. *)
Module Host.

Record Process : Type := {
  registrars_ : list (N * N);   (* manager table: handle -> wrapper *)
  heap_top : N;                 (* next free address *)
  handlers : list N;            (* registrars the plugin registered on *)
  ticks : N                     (* unrelated process state *)
}.

Definition boot : Process :=
  {| registrars_ := []; heap_top := 4096; handlers := []; ticks := 0 |}.

Fixpoint find (a : N) (t : list (N * N)) : option N :=
  match t with
  | [] => None
  | (k, v) :: t' => if k =? a then Some v else find a t'
  end.

Definition the_manager : PluginRegistrarManagerPtr := ManagerAt 1024.

Definition GetInstance (p : Process)
  : (Exn + PluginRegistrarManagerPtr) * Process :=
  (inr the_manager, p).

Definition GetRegistrar (self : PluginRegistrarManagerPtr)
    (ref : FlutterDesktopPluginRegistrarRef) (p : Process)
  : (Exn + PluginRegistrarWindowsPtr) * Process :=
  let '(ManagerAt m) := self in
  let '(RegistrarRef a) := ref in
  if (m =? 0) || (a =? 0) then (inl (AccessViolation 0), p)
  else
    match find a (registrars_ p) with
    | Some r => (inr (WindowsRegistrarAt r), p)
    | None =>
        (inr (WindowsRegistrarAt (heap_top p)),
         {| registrars_ := (a, heap_top p) :: registrars_ p;
            heap_top := heap_top p + 64;
            handlers := handlers p;
            ticks := ticks p |})
    end.

Definition RegisterWithRegistrar (r : PluginRegistrarWindowsPtr)
    (p : Process) : (Exn + unit) * Process :=
  let '(WindowsRegistrarAt a) := r in
  (inr tt,
   {| registrars_ := registrars_ p;
      heap_top := heap_top p;
      handlers := a :: handlers p;
      ticks := ticks p |}).

Definition collaborators : Collaborators Process :=
  {| manager_instance := GetInstance;
     manager_get_registrar := GetRegistrar;
     plugin_register := RegisterWithRegistrar |}.

(** A plugin whose registration method throws. *)
Definition RefuseRegistration (r : PluginRegistrarWindowsPtr)
    (p : Process) : (Exn + unit) * Process :=
  (inl (CppException "registration refused"), p).

Definition with_refusing_plugin : Collaborators Process :=
  {| manager_instance := GetInstance;
     manager_get_registrar := GetRegistrar;
     plugin_register := RefuseRegistration |}.

(** The process at boot with its heap elsewhere; the manager's table, its
    only member, is the same. *)
Definition boot_elsewhere : Process :=
  {| registrars_ := []; heap_top := 8192; handlers := []; ticks := 0 |}.

(** The same process a little later: only unrelated state differs. *)
Definition later (p : Process) : Process :=
  {| registrars_ := registrars_ p;
     heap_top := heap_top p;
     handlers := handlers p;
     ticks := ticks p + 1 |}.

End Host.

(** ** Properties of collaborators *)

(** The calls that go to the registrar manager. *)
Definition on_manager (c : Call) : bool :=
  match c with
  | CallGetInstance | CallGetRegistrar _ _ => true
  | CallRegisterWithRegistrar _ => false
  end.

(** [obs] is a part of the state that callee [c] never changes. *)
Definition untouched_by {World A : Type} (E : Collaborators World)
    (obs : World -> A) (c : Call) : Prop :=
  forall w, obs (snd (perform E c w)) = obs w.

(** ** The run of the shim, case by case *)

Section ShimRun.

Context {World : Type} (E : Collaborators World).

(** The four ways a call of the shim can go. *)
Inductive ShimRun (h : FlutterDesktopPluginRegistrarRef) (w : World)
  : Run World unit -> Prop :=
| instance_fails e w1 :
    manager_instance E w = (inl e, w1) ->
    ShimRun h w
      {| outcome := Raised (InCallee CallGetInstance) e;
         world := w1;
         log := [Enter CallGetInstance; Unwind CallGetInstance e] |}
| lookup_fails m w1 e w2 :
    manager_instance E w = (inr m, w1) ->
    manager_get_registrar E m h w1 = (inl e, w2) ->
    ShimRun h w
      {| outcome := Raised (InCallee (CallGetRegistrar m h)) e;
         world := w2;
         log := [Enter CallGetInstance;
                 Leave CallGetInstance (VManager m);
                 Enter (CallGetRegistrar m h);
                 Unwind (CallGetRegistrar m h) e] |}
| registration_fails m w1 r w2 e w3 :
    manager_instance E w = (inr m, w1) ->
    manager_get_registrar E m h w1 = (inr r, w2) ->
    plugin_register E r w2 = (inl e, w3) ->
    ShimRun h w
      {| outcome := Raised (InCallee (CallRegisterWithRegistrar r)) e;
         world := w3;
         log := [Enter CallGetInstance;
                 Leave CallGetInstance (VManager m);
                 Enter (CallGetRegistrar m h);
                 Leave (CallGetRegistrar m h) (VRegistrar r);
                 Enter (CallRegisterWithRegistrar r);
                 Unwind (CallRegisterWithRegistrar r) e] |}
| all_return m w1 r w2 w3 :
    manager_instance E w = (inr m, w1) ->
    manager_get_registrar E m h w1 = (inr r, w2) ->
    plugin_register E r w2 = (inr tt, w3) ->
    ShimRun h w
      {| outcome := Returned tt;
         world := w3;
         log := [Enter CallGetInstance;
                 Leave CallGetInstance (VManager m);
                 Enter (CallGetRegistrar m h);
                 Leave (CallGetRegistrar m h) (VRegistrar r);
                 Enter (CallRegisterWithRegistrar r);
                 Leave (CallRegisterWithRegistrar r) VVoid] |}.

Lemma run_shim_cases h w :
  ShimRun h w (run E (RecollectUtilsPluginCApiRegisterWithRegistrar h) w).
Proof.
  unfold RecollectUtilsPluginCApiRegisterWithRegistrar,
    PluginRegistrarManager.GetInstance, PluginRegistrarManager.GetRegistrar,
    RecollectUtilsPlugin.RegisterWithRegistrar, call.
  cbn [bind run perform].
  destruct (manager_instance E w) as [[e | m] w1] eqn:Hi.
  - now apply instance_fails.
  - cbn [bind run perform].
    destruct (manager_get_registrar E m h w1) as [[e | r] w2] eqn:Hl.
    + now apply lookup_fails with (w1 := w1).
    + cbn [bind run perform].
      destruct (plugin_register E r w2) as [[e | []] w3] eqn:Hr.
      * now apply registration_fails with (w1 := w1) (w2 := w2).
      * now apply all_return with (w1 := w1) (w2 := w2).
Qed.

(** When the three callees return, the shim returns. *)
Lemma run_shim_returns h w m w1 r w2 w3 :
  manager_instance E w = (inr m, w1) ->
  manager_get_registrar E m h w1 = (inr r, w2) ->
  plugin_register E r w2 = (inr tt, w3) ->
  run E (RecollectUtilsPluginCApiRegisterWithRegistrar h) w =
    {| outcome := Returned tt;
       world := w3;
       log := [Enter CallGetInstance;
               Leave CallGetInstance (VManager m);
               Enter (CallGetRegistrar m h);
               Leave (CallGetRegistrar m h) (VRegistrar r);
               Enter (CallRegisterWithRegistrar r);
               Leave (CallRegisterWithRegistrar r) VVoid] |}.
Proof.
  intros Hi Hl Hr.
  destruct (run_shim_cases h w); congruence.
Qed.

End ShimRun.

(** ** Facts about every program *)

Section Programs.

Context {World : Type} (E : Collaborators World).

(** Calls are synchronous: the log of a run is a sequence of calls, each
    left before the next is entered. *)
Lemma run_synchronous {R} (p : Prog R) w : Synchronous (log (run E p w)).
Proof.
  revert w. induction p as [r | c k IH | e]; intros w; cbn [run].
  - constructor.
  - destruct (perform E c w) as [[e | a] w']; cbn [log].
    + constructor.
    + constructor. apply IH.
  - constructor.
Qed.

(** A program changes the state only through the calls it makes. *)
Lemma run_frame {R A} (obs : World -> A) :
  (forall c, untouched_by E obs c) ->
  forall (p : Prog R) w, obs (world (run E p w)) = obs w.
Proof.
  intros Hframe p.
  induction p as [r | c k IH | e]; intros w; cbn [run]; try reflexivity.
  specialize (Hframe c w).
  destruct (perform E c w) as [[e | a] w']; cbn [world snd] in *.
  - exact Hframe.
  - now rewrite IH.
Qed.

(** An error that ends a program without [throw] was raised by a callee,
    which is in the log as the call that unwound. *)
Lemma run_raised_in_callee {R} (p : Prog R) :
  throw_free p ->
  forall w o e, outcome (run E p w) = Raised o e ->
    exists c, o = InCallee c /\ In (Unwind c e) (log (run E p w)).
Proof.
  induction p as [r | c k IH | e']; cbn [throw_free run]; intros Hfree w o e.
  - discriminate.
  - destruct (perform E c w) as [[e0 | a] w']; cbn [outcome log].
    + intros [= <- <-]. exists c. split; [reflexivity | cbn; auto].
    + intros Hout. destruct (IH a (Hfree a) w' o e Hout) as (c' & -> & Hin).
      exists c'. split; [reflexivity | cbn; auto].
  - contradiction.
Qed.

(** An [Unwind] in the log is an error the callee produced. *)
Lemma run_unwind_from_callee {R} (p : Prog R) w c e :
  In (Unwind c e) (log (run E p w)) ->
  exists w0, fst (perform E c w0) = inl e.
Proof.
  revert w. induction p as [r | c0 k IH | e']; intros w; cbn [run log].
  - contradiction.
  - destruct (perform E c0 w) as [[e0 | a] w'] eqn:Hp; cbn [log].
    + intros [H | [[= <- <-] | []]]; [discriminate |].
      exists w. now rewrite Hp.
    + intros [H | [H | H]]; [discriminate | discriminate |].
      now apply IH in H.
  - contradiction.
Qed.

End Programs.

Lemma shim_throw_free h :
  throw_free (RecollectUtilsPluginCApiRegisterWithRegistrar h).
Proof. cbn. auto. Qed.

(** ** Running the shim on the concrete host *)

Example run_on_fresh_handle :
  run Host.collaborators
      (RecollectUtilsPluginCApiRegisterWithRegistrar (RegistrarRef 7))
      Host.boot =
  {| outcome := Returned tt;
     world := {| Host.registrars_ := [(7, 4096)]; Host.heap_top := 4160;
                 Host.handlers := [4096]; Host.ticks := 0 |};
     log := [Enter CallGetInstance;
             Leave CallGetInstance (VManager Host.the_manager);
             Enter (CallGetRegistrar Host.the_manager (RegistrarRef 7));
             Leave (CallGetRegistrar Host.the_manager (RegistrarRef 7))
                   (VRegistrar (WindowsRegistrarAt 4096));
             Enter (CallRegisterWithRegistrar (WindowsRegistrarAt 4096));
             Leave (CallRegisterWithRegistrar (WindowsRegistrarAt 4096))
                   VVoid] |}.
Proof. reflexivity. Qed.

Example run_on_null_handle :
  run Host.collaborators
      (RecollectUtilsPluginCApiRegisterWithRegistrar null_registrar)
      Host.boot =
  {| outcome :=
       Raised (InCallee (CallGetRegistrar Host.the_manager null_registrar))
              (AccessViolation 0);
     world := Host.boot;
     log := [Enter CallGetInstance;
             Leave CallGetInstance (VManager Host.the_manager);
             Enter (CallGetRegistrar Host.the_manager null_registrar);
             Unwind (CallGetRegistrar Host.the_manager null_registrar)
                    (AccessViolation 0)] |}.
Proof. reflexivity. Qed.

(** ** Tactics for the case analysis *)

(** Two equations on the same callee applied to the same state give the
    same answer and the same next state. *)
Ltac same_answers :=
  repeat match goal with
  | H : ?f = (_, _), H' : ?f = (_, _) |- _ =>
      rewrite H in H'; inversion H'; subst; clear H'
  end.

(** Split the goal along the four ways the shim can run. *)
Ltac shim_cases E h w :=
  generalize (run_shim_cases E h w);
  generalize (run E (RecollectUtilsPluginCApiRegisterWithRegistrar h) w);
  let R := fresh "R" in
  let HR := fresh "HR" in
  intros R HR; destruct HR; cbn [outcome world log]; intros;
  same_answers.

(** Find where an event sits in a concrete log. *)
Ltac locate H :=
  repeat match type of H with
  | _ = ?pre ++ _ :: _ =>
      is_var pre; destruct pre; cbn [app] in H;
      injection H as ? H; try discriminate; subst
  | _ = [] ++ _ => cbn [app] in H
  | [] = _ ++ _ :: _ => now destruct (app_cons_not_nil _ _ _ H)
  end.

(** ** Properties of the exported function *)

(** C1.  When the manager lookup resolves the handle [h] to the typed
    registrar [r], a call of the exported function makes exactly one call
    of [RecollectUtilsPlugin::RegisterWithRegistrar], its argument is [r],
    and the only other calls it makes are the two of the lookup
    ([GetInstance], then [GetRegistrar] on that instance with [h]). *)
Theorem register_called_exactly_once
    {World : Type} (E : Collaborators World) h w m w1 r w2 :
  manager_instance E w = (inr m, w1) ->
  manager_get_registrar E m h w1 = (inr r, w2) ->
  registrations
    (calls (log (run E (RecollectUtilsPluginCApiRegisterWithRegistrar h) w)))
    = [r] /\
  calls (log (run E (RecollectUtilsPluginCApiRegisterWithRegistrar h) w))
    = [CallGetInstance; CallGetRegistrar m h; CallRegisterWithRegistrar r].
Proof.
  intros Hi Hl. revert Hi Hl.
  shim_cases E h w; try discriminate; split; reflexivity.
Qed.

(** On the concrete host, for the fresh handle 7. *)
Lemma register_called_exactly_once_on_host :
  registrations
    (calls (log (run Host.collaborators
      (RecollectUtilsPluginCApiRegisterWithRegistrar (RegistrarRef 7))
      Host.boot)))
    = [WindowsRegistrarAt 4096] /\
  calls (log (run Host.collaborators
      (RecollectUtilsPluginCApiRegisterWithRegistrar (RegistrarRef 7))
      Host.boot))
    = [CallGetInstance;
       CallGetRegistrar Host.the_manager (RegistrarRef 7);
       CallRegisterWithRegistrar (WindowsRegistrarAt 4096)].
Proof.
  eapply (register_called_exactly_once
            Host.collaborators (RegistrarRef 7) Host.boot);
    reflexivity.
Defined.

(** C2.  The exported function checks nothing and raises nothing itself.
    For every handle, the null handle included: (a) an error that ends the
    call was raised by one of the three callees, that callee produced it,
    and it is the error the caller sees; (b) the handle is not looked at
    before it is used: once [GetInstance] has returned, [GetRegistrar] is
    entered with it, whatever its value; (c) when the three callees return,
    so does the function. *)
Theorem shim_raises_nothing_of_its_own
    {World : Type} (E : Collaborators World) h w :
  (forall o e,
     outcome (run E (RecollectUtilsPluginCApiRegisterWithRegistrar h) w)
       = Raised o e ->
     o <> InShim /\
     exists c w0,
       o = InCallee c /\ fst (perform E c w0) = inl e /\
       In (Unwind c e)
          (log (run E (RecollectUtilsPluginCApiRegisterWithRegistrar h) w))) /\
  (forall m w1,
     manager_instance E w = (inr m, w1) ->
     In (Enter (CallGetRegistrar m h))
        (log (run E (RecollectUtilsPluginCApiRegisterWithRegistrar h) w))) /\
  (forall m w1 r w2 w3,
     manager_instance E w = (inr m, w1) ->
     manager_get_registrar E m h w1 = (inr r, w2) ->
     plugin_register E r w2 = (inr tt, w3) ->
     outcome (run E (RecollectUtilsPluginCApiRegisterWithRegistrar h) w)
       = Returned tt).
Proof.
  split; [| split].
  - intros o e Hout.
    destruct (run_raised_in_callee E _ (shim_throw_free h) w o e Hout)
      as (c & -> & Hin).
    split; [discriminate |].
    destruct (run_unwind_from_callee E _ w c e Hin) as (w0 & Hw0).
    now exists c, w0.
  - shim_cases E h w; try discriminate; cbn; auto.
  - intros m w1 r w2 w3 Hi Hl Hr.
    now rewrite (run_shim_returns E h w m w1 r w2 w3 Hi Hl Hr).
Qed.

(** On the concrete host, for the null handle: the access violation the
    caller sees is the one [GetRegistrar] raised. *)
Lemma shim_raises_nothing_of_its_own_on_null_handle :
  InCallee (CallGetRegistrar Host.the_manager null_registrar) <> InShim /\
  exists c w0,
    InCallee (CallGetRegistrar Host.the_manager null_registrar) = InCallee c /\
    fst (perform Host.collaborators c w0) = inl (AccessViolation 0) /\
    In (Unwind c (AccessViolation 0))
       (log (run Host.collaborators
         (RecollectUtilsPluginCApiRegisterWithRegistrar null_registrar)
         Host.boot)).
Proof.
  apply (proj1 (shim_raises_nothing_of_its_own
                  Host.collaborators null_registrar Host.boot)).
  reflexivity.
Defined.

(** C3.  With the manager in place, a call of the exported function
    converts the handle exactly once, on the manager [GetInstance]
    returned, and then calls the plugin's registration method with the
    converted object: when the conversion returns [r], the call
    [RegisterWithRegistrar r] is entered, once and with no other argument.
    The registration call comes strictly after the conversion: wherever
    [RegisterWithRegistrar r] is entered, the conversion has already
    returned [r], and no conversion follows. *)
Theorem conversion_once_before_registration
    {World : Type} (E : Collaborators World) h w m w1 :
  manager_instance E w = (inr m, w1) ->
  conversions
    (calls (log (run E (RecollectUtilsPluginCApiRegisterWithRegistrar h) w)))
    = [(m, h)] /\
  (forall pre r post,
    log (run E (RecollectUtilsPluginCApiRegisterWithRegistrar h) w)
      = pre ++ Enter (CallRegisterWithRegistrar r) :: post ->
    In (Leave (CallGetRegistrar m h) (VRegistrar r)) pre /\
    conversions (calls pre) = [(m, h)] /\
    conversions (calls post) = []) /\
  (forall r w2,
    manager_get_registrar E m h w1 = (inr r, w2) ->
    In (Enter (CallRegisterWithRegistrar r))
       (log (run E (RecollectUtilsPluginCApiRegisterWithRegistrar h) w)) /\
    registrations
      (calls (log (run E (RecollectUtilsPluginCApiRegisterWithRegistrar h) w)))
      = [r]).
Proof.
  intros Hi. revert Hi.
  shim_cases E h w; try discriminate;
    (split; [reflexivity | split]);
    try (intros pre r' post Hlog; locate Hlog; cbn; repeat split; auto 6);
    intros r' w2' Hl; same_answers; try discriminate;
    cbn; repeat split; auto 6.
Qed.

(** On the concrete host, for the fresh handle 7, which the manager
    converts to the wrapper at 4096. *)
Lemma conversion_once_before_registration_on_host :
  conversions
    (calls (log (run Host.collaborators
      (RecollectUtilsPluginCApiRegisterWithRegistrar (RegistrarRef 7))
      Host.boot)))
    = [(Host.the_manager, RegistrarRef 7)] /\
  (forall pre r post,
    log (run Host.collaborators
      (RecollectUtilsPluginCApiRegisterWithRegistrar (RegistrarRef 7))
      Host.boot)
      = pre ++ Enter (CallRegisterWithRegistrar r) :: post ->
    In (Leave (CallGetRegistrar Host.the_manager (RegistrarRef 7))
              (VRegistrar r)) pre /\
    conversions (calls pre) = [(Host.the_manager, RegistrarRef 7)] /\
    conversions (calls post) = []) /\
  In (Enter (CallRegisterWithRegistrar (WindowsRegistrarAt 4096)))
     (log (run Host.collaborators
       (RecollectUtilsPluginCApiRegisterWithRegistrar (RegistrarRef 7))
       Host.boot)) /\
  registrations
    (calls (log (run Host.collaborators
      (RecollectUtilsPluginCApiRegisterWithRegistrar (RegistrarRef 7))
      Host.boot)))
    = [WindowsRegistrarAt 4096].
Proof.
  destruct (conversion_once_before_registration
              Host.collaborators (RegistrarRef 7) Host.boot
              Host.the_manager Host.boot eq_refl)
    as (Honce & Horder & Hcalled).
  split; [exact Honce | split; [exact Horder |]].
  eapply Hcalled. reflexivity.
Defined.

(** C4, as the claim states it, fails.  On the concrete host the call for
    the fresh handle 7 returns, and the state it leaves is not what the
    registration call alone makes of the state the call began in, whatever
    registrar that call is given: the lookup has entered the wrapper it
    created into the manager's table. *)
Lemma registration_alone_does_not_give_the_final_state :
  outcome (run Host.collaborators
    (RecollectUtilsPluginCApiRegisterWithRegistrar (RegistrarRef 7)) Host.boot)
    = Returned tt /\
  forall r,
    world (run Host.collaborators
      (RecollectUtilsPluginCApiRegisterWithRegistrar (RegistrarRef 7)) Host.boot)
    <> snd (plugin_register Host.collaborators r Host.boot).
Proof.
  split; [reflexivity |].
  intros [a]. cbn. discriminate.
Qed.

(** C4, amended.  The exported function returns [void], and when it
    returns its effects are exactly those of the three calls it made, in
    this order and each from the state the one before left: [GetInstance],
    [GetRegistrar] on that instance with the handle, and the delegated
    [RegisterWithRegistrar] on the registrar so obtained.  The state it
    leaves is the state the registration call left, and nothing else
    happened. *)
Theorem returns_void_with_the_effects_of_its_three_calls
    {World : Type} (E : Collaborators World) h w a :
  outcome (run E (RecollectUtilsPluginCApiRegisterWithRegistrar h) w)
    = Returned a ->
  exists m w1 r w2 w3,
    manager_instance E w = (inr m, w1) /\
    manager_get_registrar E m h w1 = (inr r, w2) /\
    plugin_register E r w2 = (inr tt, w3) /\
    run E (RecollectUtilsPluginCApiRegisterWithRegistrar h) w =
      {| outcome := Returned tt;
         world := w3;
         log := [Enter CallGetInstance;
                 Leave CallGetInstance (VManager m);
                 Enter (CallGetRegistrar m h);
                 Leave (CallGetRegistrar m h) (VRegistrar r);
                 Enter (CallRegisterWithRegistrar r);
                 Leave (CallRegisterWithRegistrar r) VVoid] |}.
Proof.
  intros Hret.
  destruct (run_shim_cases E h w) as [ | | | m w1 r w2 w3 Hi Hl Hr];
    try discriminate.
  exists m, w1, r, w2, w3. repeat split; assumption.
Qed.

(** On the concrete host, for the fresh handle 7, where the call returns:
    the table holds the new wrapper and the plugin has its registrar. *)
Lemma returns_void_with_the_effects_of_its_three_calls_on_host :
  exists m w1 r w2 w3,
    manager_instance Host.collaborators Host.boot = (inr m, w1) /\
    manager_get_registrar Host.collaborators m (RegistrarRef 7) w1
      = (inr r, w2) /\
    plugin_register Host.collaborators r w2 = (inr tt, w3) /\
    run Host.collaborators
      (RecollectUtilsPluginCApiRegisterWithRegistrar (RegistrarRef 7)) Host.boot =
      {| outcome := Returned tt;
         world := w3;
         log := [Enter CallGetInstance;
                 Leave CallGetInstance (VManager m);
                 Enter (CallGetRegistrar m (RegistrarRef 7));
                 Leave (CallGetRegistrar m (RegistrarRef 7)) (VRegistrar r);
                 Enter (CallRegisterWithRegistrar r);
                 Leave (CallRegisterWithRegistrar r) VVoid] |}.
Proof.
  apply (returns_void_with_the_effects_of_its_three_calls
           Host.collaborators (RegistrarRef 7) Host.boot tt).
  reflexivity.
Defined.

(** C5, as the claim states it, fails.  On the concrete host the plugin's
    registration method never changes the manager's table, yet the table
    is not the same after a call of the exported function: the lookup
    created the typed wrapper for the handle and kept it. *)
Lemma lookup_changes_what_registration_leaves_alone :
  (forall r, untouched_by Host.collaborators Host.registrars_
               (CallRegisterWithRegistrar r)) /\
  Host.registrars_
    (world (run Host.collaborators
      (RecollectUtilsPluginCApiRegisterWithRegistrar (RegistrarRef 7))
      Host.boot))
  <> Host.registrars_ Host.boot.
Proof.
  split.
  - intros [a] p. reflexivity.
  - cbn. discriminate.
Qed.

(** C5, amended.  The exported function owns no state and keeps nothing
    of its own: every change of state during a call is made by one of the
    three calls the function makes.  Whatever part [obs] of the state is
    left as it was by the [GetInstance] call, by the [GetRegistrar] call on
    the handle and by the [RegisterWithRegistrar] call on its result, each
    taken in the state it is made in, is the same when the call ends, by
    return or by error, as when it began.  Nothing is asked of calls the
    function does not make. *)
Theorem state_changes_only_through_calls_made
    {World A : Type} (E : Collaborators World) (obs : World -> A) h w :
  obs (snd (manager_instance E w)) = obs w ->
  (forall m w1,
     manager_instance E w = (inr m, w1) ->
     obs (snd (manager_get_registrar E m h w1)) = obs w1) ->
  (forall m w1 r w2,
     manager_instance E w = (inr m, w1) ->
     manager_get_registrar E m h w1 = (inr r, w2) ->
     obs (snd (plugin_register E r w2)) = obs w2) ->
  obs (world (run E (RecollectUtilsPluginCApiRegisterWithRegistrar h) w))
    = obs w.
Proof.
  intros Hinstance Hlookup Hregister.
  revert Hinstance Hlookup Hregister.
  shim_cases E h w;
    repeat match goal with
    | Hi : manager_instance E w = _, H : obs (snd (manager_instance E w)) = _
      |- _ => rewrite Hi in H; cbn [snd] in H
    | Hi : manager_instance E w = (inr _, _),
      H : forall m w1, manager_instance E w = (inr m, w1) -> _ |- _ =>
        specialize (H _ _ Hi)
    | Hi : manager_instance E w = (inr _, _),
      H : forall m w1 r w2, manager_instance E w = (inr m, w1) -> _ |- _ =>
        specialize (fun r w2 => H _ _ r w2 Hi)
    | Hl : manager_get_registrar E ?m h ?w1 = _,
      H : obs (snd (manager_get_registrar E ?m h ?w1)) = _ |- _ =>
        rewrite Hl in H; cbn [snd] in H
    | Hl : manager_get_registrar E ?m h ?w1 = (inr _, _),
      H : forall r w2, manager_get_registrar E ?m h ?w1 = (inr r, w2) -> _
      |- _ => specialize (H _ _ Hl)
    | Hr : plugin_register E ?r ?w2 = _,
      H : obs (snd (plugin_register E ?r ?w2)) = _ |- _ =>
        rewrite Hr in H; cbn [snd] in H
    end;
    congruence.
Qed.

(** On the concrete host the call for handle 7 enters a wrapper for 7 into
    the manager's table; the entry of another handle, 9, is a part of the
    state none of the three calls made changes, and the call leaves it as
    it was. *)
Lemma state_changes_only_through_calls_made_on_host :
  Host.find 9
    (Host.registrars_
      (world (run Host.collaborators
        (RecollectUtilsPluginCApiRegisterWithRegistrar (RegistrarRef 7)) Host.boot)))
  = Host.find 9 (Host.registrars_ Host.boot).
Proof.
  apply (state_changes_only_through_calls_made
           Host.collaborators
           (fun p => Host.find 9 (Host.registrars_ p))
           (RegistrarRef 7) Host.boot).
  - reflexivity.
  - intros m w1 [= <- <-]. reflexivity.
  - intros m w1 r w2 [= <- <-] Hl. cbn in Hl. injection Hl as <- <-.
    reflexivity.
Defined.

(** C7.  The handle the exported function receives goes to the lookup as
    it is.  Any handle the function passes to a callee is the very handle
    it was given; with the manager in place it is passed exactly once, as
    the argument of [GetRegistrar]; and the function writes it nowhere:
    any part of the state the callees leave alone is left alone by the
    call. *)
Theorem handle_forwarded_unmodified
    {World : Type} (E : Collaborators World) h w :
  (forall h',
     In h' (handles_passed
              (log (run E (RecollectUtilsPluginCApiRegisterWithRegistrar h) w)))
     -> h' = h) /\
  (forall m w1,
     manager_instance E w = (inr m, w1) ->
     handles_passed
       (log (run E (RecollectUtilsPluginCApiRegisterWithRegistrar h) w))
       = [h] /\
     filter takes_handle
       (calls (log (run E (RecollectUtilsPluginCApiRegisterWithRegistrar h) w)))
       = [CallGetRegistrar m h]) /\
  (forall (A : Type) (obs : World -> A),
     (forall c, untouched_by E obs c) ->
     obs (world (run E (RecollectUtilsPluginCApiRegisterWithRegistrar h) w))
       = obs w).
Proof.
  split; [| split].
  - shim_cases E h w; cbn in *; intuition congruence.
  - shim_cases E h w; try discriminate; split; reflexivity.
  - intros A obs Hframe. now apply run_frame.
Qed.

(** On the concrete host, for the fresh handle 7. *)
Lemma handle_forwarded_unmodified_on_host :
  handles_passed
    (log (run Host.collaborators
      (RecollectUtilsPluginCApiRegisterWithRegistrar (RegistrarRef 7))
      Host.boot))
    = [RegistrarRef 7] /\
  filter takes_handle
    (calls (log (run Host.collaborators
      (RecollectUtilsPluginCApiRegisterWithRegistrar (RegistrarRef 7))
      Host.boot)))
    = [CallGetRegistrar Host.the_manager (RegistrarRef 7)].
Proof.
  apply (proj1 (proj2 (handle_forwarded_unmodified
                         Host.collaborators (RegistrarRef 7) Host.boot))
           Host.the_manager Host.boot).
  reflexivity.
Defined.

(** C8, as the claim states it, fails.  On the concrete host two calls
    with the same handle, made against the same manager state (the same
    table of registrars), hand different typed registrars to the plugin:
    the handle is new to the table, so the lookup creates its wrapper, and
    the wrapper sits where the allocator puts it, at 4096 in one process
    and at 8192 in the other. *)
Lemma same_manager_table_different_registrar :
  Host.registrars_ Host.boot = Host.registrars_ Host.boot_elsewhere /\
  registrations
    (calls (log (run Host.collaborators
      (RecollectUtilsPluginCApiRegisterWithRegistrar (RegistrarRef 7)) Host.boot)))
  <> registrations
    (calls (log (run Host.collaborators
      (RecollectUtilsPluginCApiRegisterWithRegistrar (RegistrarRef 7)) Host.boot_elsewhere))).
Proof.
  split; [reflexivity |]. cbn. discriminate.
Qed.

(** C8, amended.  What the exported function does is fixed by its argument
    and by what the registrar-manager lookup answers.  Take two calls with
    the same handle, in any two processes, with any callees and any states:
    if [GetInstance] answers alike in both and [GetRegistrar] on that
    instance answers alike for the handle, the two calls make the same
    calls with the same arguments, and so hand the same typed registrar to
    the same registration method.  Nothing else has a say. *)
Theorem calls_fixed_by_handle_and_lookup_answers
    {World World' : Type}
    (E : Collaborators World) (E' : Collaborators World') h w w' :
  fst (manager_instance E w) = fst (manager_instance E' w') ->
  (forall m w1 w1',
     manager_instance E w = (inr m, w1) ->
     manager_instance E' w' = (inr m, w1') ->
     fst (manager_get_registrar E m h w1)
     = fst (manager_get_registrar E' m h w1')) ->
  calls (log (run E (RecollectUtilsPluginCApiRegisterWithRegistrar h) w))
  = calls (log (run E' (RecollectUtilsPluginCApiRegisterWithRegistrar h) w')).
Proof.
  intros Hinstance Hlookup.
  unfold RecollectUtilsPluginCApiRegisterWithRegistrar,
    PluginRegistrarManager.GetInstance, PluginRegistrarManager.GetRegistrar,
    RecollectUtilsPlugin.RegisterWithRegistrar, call.
  cbn [bind run perform].
  destruct (manager_instance E w) as [[e | m] w1],
           (manager_instance E' w') as [[e' | m'] w1'];
    cbn [fst] in Hinstance; try discriminate; [reflexivity |].
  injection Hinstance as <-.
  specialize (Hlookup m w1 w1' eq_refl eq_refl).
  cbn [bind run perform].
  destruct (manager_get_registrar E m h w1) as [[e | r] w2],
           (manager_get_registrar E' m h w1') as [[e' | r'] w2'];
    cbn [fst] in Hlookup; try discriminate; [reflexivity |].
  injection Hlookup as <-.
  cbn [bind run perform].
  destruct (plugin_register E r w2) as [[e | []] w3],
           (plugin_register E' r w2') as [[e' | []] w3'];
    reflexivity.
Qed.

(** On the concrete host: the same call one tick later, and with a plugin
    that refuses the registration in place of one that accepts it. *)
Lemma calls_fixed_by_handle_and_lookup_answers_on_host :
  calls (log (run Host.collaborators
    (RecollectUtilsPluginCApiRegisterWithRegistrar (RegistrarRef 7)) Host.boot))
  = calls (log (run Host.with_refusing_plugin
    (RecollectUtilsPluginCApiRegisterWithRegistrar (RegistrarRef 7)) (Host.later Host.boot))).
Proof.
  apply (calls_fixed_by_handle_and_lookup_answers
           Host.collaborators Host.with_refusing_plugin (RegistrarRef 7)
           Host.boot (Host.later Host.boot)).
  - reflexivity.
  - intros m w1 w1' [= <- <-] [= <-]. reflexivity.
Defined.

(** C9.  The typed registrar the plugin is handed always comes out of the
    manager that [PluginRegistrarManager::GetInstance] returned in that
    very call: the receivers of the [GetRegistrar] calls are exactly the
    instances [GetInstance] returned, and a registrar passed to
    [RegisterWithRegistrar] is the answer of [GetRegistrar] on that
    instance for the handle given.  Hence, where [GetInstance] answers with
    one and the same instance in every state, every call of the exported
    function resolves its handle through that instance. *)
Theorem registrar_resolved_through_get_instance
    {World : Type} (E : Collaborators World) h w :
  map fst
    (conversions
      (calls (log (run E (RecollectUtilsPluginCApiRegisterWithRegistrar h) w))))
  = instances (log (run E (RecollectUtilsPluginCApiRegisterWithRegistrar h) w))
  /\
  (forall r,
     In (Enter (CallRegisterWithRegistrar r))
        (log (run E (RecollectUtilsPluginCApiRegisterWithRegistrar h) w)) ->
     exists m w1 w2,
       manager_instance E w = (inr m, w1) /\
       manager_get_registrar E m h w1 = (inr r, w2)) /\
  (forall singleton,
     (forall w0, fst (manager_instance E w0) = inr singleton) ->
     map fst
       (conversions
         (calls
           (log (run E (RecollectUtilsPluginCApiRegisterWithRegistrar h) w))))
     = [singleton]).
Proof.
  split; [| split].
  - shim_cases E h w; reflexivity.
  - shim_cases E h w; cbn in *;
      repeat match goal with
      | H : _ \/ _ |- _ => destruct H
      | H : False |- _ => destruct H
      | H : Enter _ = Enter _ |- _ => injection H as <-
      end;
      try discriminate; eauto.
  - intros m0 Hsingle. specialize (Hsingle w). revert Hsingle.
    shim_cases E h w;
      match goal with
      | Hi : manager_instance _ _ = _, Hs : fst _ = _ |- _ =>
          rewrite Hi in Hs; cbn in Hs
      end;
      try discriminate; injection Hsingle as <-; reflexivity.
Qed.

(** On the concrete host [GetInstance] always answers [Host.the_manager]. *)
Lemma registrar_resolved_through_get_instance_on_host :
  map fst
    (conversions
      (calls
        (log (run Host.collaborators
          (RecollectUtilsPluginCApiRegisterWithRegistrar (RegistrarRef 7))
          Host.boot))))
  = [Host.the_manager].
Proof.
  apply (proj2 (proj2 (registrar_resolved_through_get_instance
                         Host.collaborators (RegistrarRef 7) Host.boot))
           Host.the_manager).
  intros w0. reflexivity.
Defined.

(** ** Error paths and bounds of the exported function *)

(** X1.  A lookup that fails never reaches the plugin.  When [GetInstance]
    fails, or returns a manager on which [GetRegistrar] fails for the
    handle, the exported function does not call [RegisterWithRegistrar] at
    all, and it ends with the error of the manager call that failed. *)
Theorem failed_lookup_skips_registration
    {World : Type} (E : Collaborators World) h w e :
  fst (manager_instance E w) = inl e \/
  (exists m w1,
     manager_instance E w = (inr m, w1) /\
     fst (manager_get_registrar E m h w1) = inl e) ->
  registrations
    (calls (log (run E (RecollectUtilsPluginCApiRegisterWithRegistrar h) w)))
    = [] /\
  exists c,
    on_manager c = true /\
    outcome (run E (RecollectUtilsPluginCApiRegisterWithRegistrar h) w)
      = Raised (InCallee c) e.
Proof.
  intros Hfail. revert Hfail.
  shim_cases E h w;
    match goal with
    | Hf : _ \/ _ |- _ =>
        destruct Hf as [Hf | (m' & w1' & Hi' & Hf)]; same_answers
    end;
    repeat match goal with
    | Hi : ?f = (_, _), Hf : fst ?f = _ |- _ => rewrite Hi in Hf; cbn in Hf
    end;
    try discriminate;
    match goal with
    | Hf : inl _ = inl _ |- _ => injection Hf as <-
    end;
    (split; [reflexivity | eexists; split; [| reflexivity]; reflexivity]).
Qed.

(** On the concrete host the null handle makes the lookup fail. *)
Lemma failed_lookup_skips_registration_on_null_handle :
  registrations
    (calls (log (run Host.collaborators
      (RecollectUtilsPluginCApiRegisterWithRegistrar null_registrar)
      Host.boot)))
    = [] /\
  exists c,
    on_manager c = true /\
    outcome (run Host.collaborators
      (RecollectUtilsPluginCApiRegisterWithRegistrar null_registrar)
      Host.boot)
      = Raised (InCallee c) (AccessViolation 0).
Proof.
  apply (failed_lookup_skips_registration
           Host.collaborators null_registrar Host.boot (AccessViolation 0)).
  right. exists Host.the_manager, Host.boot. split; reflexivity.
Defined.

(** X2.  No retry and no cleanup.  When the exported function ends with an
    error, the callee that raised it is the last call the function made,
    and the state the function leaves is exactly the state that callee
    left, reached through the states the earlier callees left: the failing
    [GetRegistrar] ran from the state [GetInstance] left, the failing
    [RegisterWithRegistrar] from the state [GetRegistrar] left.  What the
    earlier callees did is not undone. *)
Theorem error_ends_the_call_where_it_was_raised
    {World : Type} (E : Collaborators World) h w o e :
  outcome (run E (RecollectUtilsPluginCApiRegisterWithRegistrar h) w)
    = Raised o e ->
  (o = InCallee CallGetInstance /\
   manager_instance E w =
     (inl e, world (run E (RecollectUtilsPluginCApiRegisterWithRegistrar h) w)) /\
   calls (log (run E (RecollectUtilsPluginCApiRegisterWithRegistrar h) w)) = [CallGetInstance])
  \/
  (exists m w1,
     manager_instance E w = (inr m, w1) /\
     o = InCallee (CallGetRegistrar m h) /\
     manager_get_registrar E m h w1 =
       (inl e, world (run E (RecollectUtilsPluginCApiRegisterWithRegistrar h) w)) /\
     calls (log (run E (RecollectUtilsPluginCApiRegisterWithRegistrar h) w))
       = [CallGetInstance; CallGetRegistrar m h])
  \/
  (exists m w1 r w2,
     manager_instance E w = (inr m, w1) /\
     manager_get_registrar E m h w1 = (inr r, w2) /\
     o = InCallee (CallRegisterWithRegistrar r) /\
     plugin_register E r w2 =
       (inl e, world (run E (RecollectUtilsPluginCApiRegisterWithRegistrar h) w)) /\
     calls (log (run E (RecollectUtilsPluginCApiRegisterWithRegistrar h) w))
       = [CallGetInstance; CallGetRegistrar m h;
          CallRegisterWithRegistrar r]).
Proof.
  shim_cases E h w; try discriminate;
    match goal with
    | H : Raised _ _ = Raised _ _ |- _ => injection H as <- <-
    end.
  - left. auto.
  - right. left. exists m, w1. auto.
  - right. right. exists m, w1, r, w2. repeat split; auto.
Qed.

(** On the concrete host with a plugin that refuses the registration: the
    lookup has entered the wrapper of handle 7 into the manager's table
    before the registration fails, and the entry is still there when the
    error reaches the caller. *)
Lemma error_ends_the_call_where_it_was_raised_on_refusal :
  Host.registrars_
    (world (run Host.with_refusing_plugin
      (RecollectUtilsPluginCApiRegisterWithRegistrar (RegistrarRef 7)) Host.boot))
    = [(7, 4096)] /\
  ((InCallee (CallRegisterWithRegistrar (WindowsRegistrarAt 4096))
      = InCallee CallGetInstance /\
    manager_instance Host.with_refusing_plugin Host.boot =
      (inl (CppException "registration refused"),
       world (run Host.with_refusing_plugin
         (RecollectUtilsPluginCApiRegisterWithRegistrar (RegistrarRef 7)) Host.boot)) /\
    calls (log (run Host.with_refusing_plugin
      (RecollectUtilsPluginCApiRegisterWithRegistrar (RegistrarRef 7)) Host.boot)) = [CallGetInstance])
   \/
   (exists m w1,
      manager_instance Host.with_refusing_plugin Host.boot = (inr m, w1) /\
      InCallee (CallRegisterWithRegistrar (WindowsRegistrarAt 4096))
        = InCallee (CallGetRegistrar m (RegistrarRef 7)) /\
      manager_get_registrar Host.with_refusing_plugin m (RegistrarRef 7) w1 =
        (inl (CppException "registration refused"),
         world (run Host.with_refusing_plugin
           (RecollectUtilsPluginCApiRegisterWithRegistrar (RegistrarRef 7)) Host.boot)) /\
      calls (log (run Host.with_refusing_plugin
        (RecollectUtilsPluginCApiRegisterWithRegistrar (RegistrarRef 7)) Host.boot))
        = [CallGetInstance; CallGetRegistrar m (RegistrarRef 7)])
   \/
   (exists m w1 r w2,
      manager_instance Host.with_refusing_plugin Host.boot = (inr m, w1) /\
      manager_get_registrar Host.with_refusing_plugin m (RegistrarRef 7) w1
        = (inr r, w2) /\
      InCallee (CallRegisterWithRegistrar (WindowsRegistrarAt 4096))
        = InCallee (CallRegisterWithRegistrar r) /\
      plugin_register Host.with_refusing_plugin r w2 =
        (inl (CppException "registration refused"),
         world (run Host.with_refusing_plugin
           (RecollectUtilsPluginCApiRegisterWithRegistrar (RegistrarRef 7)) Host.boot)) /\
      calls (log (run Host.with_refusing_plugin
        (RecollectUtilsPluginCApiRegisterWithRegistrar (RegistrarRef 7)) Host.boot))
        = [CallGetInstance; CallGetRegistrar m (RegistrarRef 7);
           CallRegisterWithRegistrar r])).
Proof.
  split; [reflexivity |].
  apply (error_ends_the_call_where_it_was_raised
           Host.with_refusing_plugin (RegistrarRef 7) Host.boot).
  reflexivity.
Defined.

(** X3.  Whatever the callees do, one call of the exported function makes
    at most three calls: [GetInstance] first and exactly once, then at most
    one [GetRegistrar] and at most one [RegisterWithRegistrar]. *)
Theorem at_most_one_call_of_each_callee
    {World : Type} (E : Collaborators World) h w :
  hd_error
    (calls (log (run E (RecollectUtilsPluginCApiRegisterWithRegistrar h) w)))
    = Some CallGetInstance /\
  (List.length
     (instances_entered
       (calls
         (log (run E (RecollectUtilsPluginCApiRegisterWithRegistrar h) w))))
   = 1)%nat /\
  (List.length
     (conversions
       (calls
         (log (run E (RecollectUtilsPluginCApiRegisterWithRegistrar h) w))))
   <= 1)%nat /\
  (List.length
     (registrations
       (calls
         (log (run E (RecollectUtilsPluginCApiRegisterWithRegistrar h) w))))
   <= 1)%nat /\
  (List.length
     (calls (log (run E (RecollectUtilsPluginCApiRegisterWithRegistrar h) w)))
   <= 3)%nat.
Proof.
  shim_cases E h w; cbn; repeat split; auto.
Qed.
